(** * thinkai_cli: a static file server (src/main.py)

    The program is a single-level specialisation of the platform's static
    HTTP file handler plus a bootstrap that binds a TCP listener, announces
    the port and serves forever.  This development embeds

    - the host operating system as seen by the program (a file tree, the
      set of TCP ports that already have a listener);
    - the platform's file-serving facility, which is not part of the
      repository and is modelled from the specification;
    - the class [MyHttpRequestHandler] and the functions [run_server] and
      [main] of src/main.py, over a small state monad with exceptions. *)

From Stdlib Require Import ZArith List String Ascii Bool Lia DecimalString.
From Stdlib Require Import DecimalPos DecimalZ.
From stdpp Require Import base option strings gmap.

Import ListNotations.
Local Open Scope string_scope.

(** ** Paths and URL text *)

Module Path.

(** A path is the list of its segments, outermost first. *)
Definition path := list string.

Definition slash : ascii := "/"%char.

(** [split_acc cur s] cuts [s] at every slash; [cur] holds the characters
    of the segment being read, in reverse. *)
Fixpoint split_acc (cur : string) (s : string) : list string :=
  match s with
  | EmptyString => [cur]
  | String c rest =>
      if Ascii.eqb c slash then cur :: split_acc "" rest
      else split_acc (cur +:+ String c "") rest
  end.

Definition split (s : string) : list string := split_acc "" s.

(** [join segs] writes the segments with a slash in front of each one, so
    [join ["a"; "b"]] is ["/a/b"]: the URL path of a relative file path. *)
Fixpoint join (segs : list string) : string :=
  match segs with
  | [] => ""
  | seg :: rest => String slash (seg +:+ join rest)
  end.

Fixpoint has_slash (s : string) : bool :=
  match s with
  | EmptyString => false
  | String c rest => Ascii.eqb c slash || has_slash rest
  end.

(** A segment that can name a directory entry: not empty, no slash, and
    neither of the two reserved names. *)
Definition entry_name (s : string) : bool :=
  negb (String.eqb s "") && negb (has_slash s)
  && negb (String.eqb s ".") && negb (String.eqb s "..").

Definition entry_names (p : path) : bool := forallb entry_name p.

(** The text after the last dot of the last segment, dot included. *)
Fixpoint ext_acc (found : option string) (s : string) : option string :=
  match s with
  | EmptyString => found
  | String c rest =>
      if Ascii.eqb c "."%char then ext_acc (Some (String c rest)) rest
      else ext_acc found rest
  end.

Definition extension (p : path) : string :=
  match ext_acc None (List.last p "") with
  | Some e => e
  | None => ""
  end.

End Path.

(** ** The host: file tree, ports, and the streams of the process *)

Module Host.
Import Path.

(** What a path of the host names.  Directory membership is given by the
    paths themselves; a file carries its permission bit and its bytes. *)
Inductive node : Type :=
  | File (readable : bool) (content : list Byte.byte)
  | Dir.

(** Status codes are kept as the three classes the program can produce
    for a GET; a client error other than 404 carries the code the
    platform chooses for it. *)
Inductive status : Type :=
  | OK
  | NOT_FOUND
  | CLIENT_ERROR (code : Z)
  | PLATFORM_DEFAULT (code : Z).

Definition status_code (s : status) : Z :=
  match s with
  | OK => 200
  | NOT_FOUND => 404
  | CLIENT_ERROR c => c
  | PLATFORM_DEFAULT c => c
  end.

(** Response: status code, inferred content type, and a byte body (file
    contents) or an error payload. *)
Inductive payload : Type :=
  | FileBytes (content : list Byte.byte)
  | ErrorPayload (message : string)
  | PlatformPayload (content : list Byte.byte).

Record response : Type := Response {
  resp_status : status;
  resp_content_type : option string;
  resp_payload : payload
}.

Record request : Type := Request {
  command : string;
  url_path : string;
  headers : list (string * string)
}.

Definition GET (p : string) : request := Request "GET" p [].

(** What the environment can do to a listening server: a client sends a
    request, the listener fails with an error the loop does not handle, or
    the process is terminated from outside. *)
Inductive event : Type :=
  | Connection (req : request)
  | ListenerError (msg : string)
  | Terminate.

Definition is_connection (e : event) : bool :=
  match e with
  | Connection _ => true
  | _ => false
  end.

(** The state a run of the program can observe or change. *)
Record world : Type := World {
  files : gmap path node;      (* host file tree, by absolute path *)
  cwd : path;                  (* working directory of the process *)
  in_use : list Z;             (* TCP ports other processes listen on *)
  listener : option (string * Z);  (* the address this process listens on *)
  incoming : list event;       (* what the environment will deliver next *)
  stdout : list string;        (* lines printed so far *)
  stderr : list string;
  wfile : list response        (* what was written to client sockets *)
}.

(** What the path [p] names in the file tree [fs], if anything. *)
Definition node_at (fs : gmap path node) (p : path) : option node := fs !! p.

Definition with_listener (w : world) (l : option (string * Z)) : world :=
  World (files w) (cwd w) (in_use w) l (incoming w)
        (stdout w) (stderr w) (wfile w).
Definition with_incoming (w : world) (l : list event) : world :=
  World (files w) (cwd w) (in_use w) (listener w) l
        (stdout w) (stderr w) (wfile w).
Definition with_stdout (w : world) (l : list string) : world :=
  World (files w) (cwd w) (in_use w) (listener w) (incoming w)
        l (stderr w) (wfile w).
Definition with_stderr (w : world) (l : list string) : world :=
  World (files w) (cwd w) (in_use w) (listener w) (incoming w)
        (stdout w) l (wfile w).
Definition with_wfile (w : world) (l : list response) : world :=
  World (files w) (cwd w) (in_use w) (listener w) (incoming w)
        (stdout w) (stderr w) l.

End Host.

(** ** Computations of the interpreter

    A statement either completes, raises, is still waiting for input when
    the observed prefix of the environment ends, or is cut short because
    the process was terminated from outside. *)

Module Py.
Import Host.

Inductive exn : Type :=
  | OSError (msg : string)
  | AttributeError (msg : string).

Inductive result (A : Type) : Type :=
  | Done (a : A)
  | Raised (e : exn)
  | Waiting
  | Killed.
Arguments Done {A} a.
Arguments Raised {A} e.
Arguments Waiting {A}.
Arguments Killed {A}.

Definition M (A : Type) : Type := world -> result A * world.

Definition ret {A} (a : A) : M A := fun w => (Done a, w).

Definition bind {A B} (m : M A) (k : A -> M B) : M B :=
  fun w =>
    match m w with
    | (Done a, w') => k a w'
    | (Raised e, w') => (Raised e, w')
    | (Waiting, w') => (Waiting, w')
    | (Killed, w') => (Killed, w')
    end.

Definition raise {A} (e : exn) : M A := fun w => (Raised e, w).

Definition gets {A} (f : world -> A) : M A := fun w => (Done (f w), w).
Definition modify (f : world -> world) : M unit := fun w => (Done tt, f w).

(** [with_ enter exit body] is the [with] statement: the exit action runs
    when the body completes or raises, and the exception is raised again
    afterwards.  A body that is still running, or a process that was
    terminated, has not reached the exit. *)
Definition with_ {S A} (enter : M S) (exit : S -> M unit) (body : S -> M A)
  : M A :=
  fun w =>
    match enter w with
    | (Done s, w1) =>
        match body s w1 with
        | (Done a, w2) =>
            match exit s w2 with
            | (Done _, w3) => (Done a, w3)
            | (Raised e, w3) => (Raised e, w3)
            | (Waiting, w3) => (Waiting, w3)
            | (Killed, w3) => (Killed, w3)
            end
        | (Raised e, w2) => (Raised e, snd (exit s w2))
        | (Waiting, w2) => (Waiting, w2)
        | (Killed, w2) => (Killed, w2)
        end
    | (Raised e, w1) => (Raised e, w1)
    | (Waiting, w1) => (Waiting, w1)
    | (Killed, w1) => (Killed, w1)
    end.

(** [try: m except Exception as e: handler e] *)
Definition try_except {A} (m : M A) (handler : exn -> M A) : M A :=
  fun w =>
    match m w with
    | (Raised e, w') => handler e w'
    | other => other
    end.

(** The report the interpreter writes for an exception. *)
Definition traceback (e : exn) : list string :=
  "Traceback (most recent call last):" ::
  match e with
  | OSError msg => ["OSError: " +:+ msg]
  | AttributeError msg => ["AttributeError: " +:+ msg]
  end.

(** [preserves f m]: running [m] leaves the component [f] of the world as
    it was, whatever the result. *)
Definition preserves {A X} (f : world -> X) (m : M A) : Prop :=
  forall w, f (m w).2 = f w.

End Py.

Declare Scope py_scope.
Delimit Scope py_scope with py.
Notation "'let*' x ':=' m 'in' k" := (Py.bind m (fun x => k))
  (at level 10, x name, m at level 100, k at level 200) : py_scope.
Notation "m '>>' k" := (Py.bind m (fun _ => k))
  (at level 100, k at level 200, right associativity) : py_scope.

Local Open Scope py_scope.

(** ** The platform's static file-serving facility *)

Module Platform.
Import Path Host Py.

(** The points the specification leaves to the platform's defaults: the
    table of content types, what happens to a path that climbs above the
    serving root (rejected with a client error, or kept at the root), the
    status for a file that cannot be read, the answer for a directory, and
    the answer to a verb other than GET. *)
Record defaults : Type := Defaults {
  guess_type : string -> string;      (* content type of an extension *)
  clamp : bool;                       (* a [..] at the root stays at the root *)
  escape_code : Z;                    (* status of a rejected escape *)
  unreadable_code : Z;                (* status of a file without read access *)
  directory_default : path -> gmap path node -> response;
  unsupported : request -> response   (* answer to a verb with no handler *)
}.

Inductive resolution : Type :=
  | InRoot (rel : path)
  | Escapes.

(** Modelled from the spec: path resolution of the platform's facility,
    which is not among the repository's sources.  [walk] follows the
    segments of a URL path from the serving root; [stack] is the path
    reached so far, innermost first.  Empty segments and [.] stay in
    place, [..] goes one level up, and a [..] at the root is an attempt to
    escape, rejected or ignored by the platform's policy. *)
Fixpoint walk (clamp : bool) (stack : list string) (segs : list string)
  : resolution :=
  match segs with
  | [] => InRoot (rev stack)
  | seg :: rest =>
      if String.eqb seg "" || String.eqb seg "." then walk clamp stack rest
      else if String.eqb seg ".." then
        match stack with
        | _ :: up => walk clamp up rest
        | [] => if clamp then walk clamp [] rest else Escapes
        end
      else walk clamp (seg :: stack) rest
  end.

Definition resolve (clamp : bool) (url : string) : resolution :=
  walk clamp [] (split url).

(** The part of the file tree at or below [root]. *)
Definition under (root : path) (fs : gmap path node) : gmap path node :=
  filter (fun kv => root `prefix_of` kv.1) fs.

Definition getcwd : M path := gets cwd.
Definition stat (p : path) : M (option node) :=
  gets (fun w => node_at (files w) p).
Definition listing (p : path) : M (gmap path node) :=
  gets (fun w => under p (files w)).
Definition send (r : response) : M unit :=
  modify (fun w => with_wfile w (wfile w ++ [r])%list).

Definition send_error (s : status) (message : string) : M unit :=
  send (Response s None (ErrorPayload message)).

(** Modelled from the spec: the GET operation of the platform's static
    file-serving facility (the base handler class of the standard library,
    which is not among the repository's sources).  The URL path is used as
    a path relative to the working directory of the process; an existing
    readable regular file is answered with 200, the content type of its
    extension and its bytes; a directory with the platform's default; a
    path that resolves to no file with 404 and an error body; an escape of
    the serving root or a file without read permission with the
    platform's client error. *)
Definition do_GET (d : defaults) (self : request) : M unit :=
  let* root := getcwd in
  match resolve (clamp d) (url_path self) with
  | Escapes => send_error (CLIENT_ERROR (escape_code d)) "Forbidden"
  | InRoot rel =>
      let* n := stat (root ++ rel)%list in
      match n with
      | None => send_error NOT_FOUND "File not found"
      | Some Dir =>
          let* sub := listing (root ++ rel)%list in
          send (directory_default d rel sub)
      | Some (File false _) =>
          send_error (CLIENT_ERROR (unreadable_code d)) "Forbidden"
      | Some (File true content) =>
          send (Response OK (Some (guess_type d (extension rel)))
                         (FileBytes content))
      end
  end.

(** The response [do_GET] writes, as a function of what it reads: the
    file tree, the working directory and the URL path. *)
Definition answer (d : defaults) (fs : gmap path node) (root : path)
  (url : string) : response :=
  match resolve (clamp d) url with
  | Escapes => Response (CLIENT_ERROR (escape_code d)) None
                        (ErrorPayload "Forbidden")
  | InRoot rel =>
      match node_at fs (root ++ rel)%list with
      | None => Response NOT_FOUND None (ErrorPayload "File not found")
      | Some Dir => directory_default d rel (under (root ++ rel)%list fs)
      | Some (File false _) =>
          Response (CLIENT_ERROR (unreadable_code d)) None
                   (ErrorPayload "Forbidden")
      | Some (File true content) =>
          Response OK (Some (guess_type d (extension rel)))
                   (FileBytes content)
      end
  end.

(** Classes: a name, the base class, and the methods the class statement
    itself defines; [object] is the root of every hierarchy. *)
Definition method : Type := request -> M unit.

Inductive class : Type :=
  | object
  | Class (name : string) (base : class) (dict : list (string * method)).

Fixpoint assoc {A} (k : string) (l : list (string * A)) : option A :=
  match l with
  | [] => None
  | (k', v) :: rest => if String.eqb k k' then Some v else assoc k rest
  end.

(** Attribute lookup: the class's own dictionary first, then its base. *)
Fixpoint getattr (c : class) (attr : string) : option method :=
  match c with
  | object => None
  | Class _ base dict =>
      match assoc attr dict with
      | Some m => Some m
      | None => getattr base attr
      end
  end.

Definition SimpleHTTPRequestHandler (d : defaults) : class :=
  Class "SimpleHTTPRequestHandler" object [("do_GET", do_GET d)].

(** Modelled from the spec: the dispatch of the platform's base handler,
    which is not among the repository's sources.  One request is answered
    by the method named after its verb; a verb without a method gets the
    platform's default answer. *)
Definition handle (d : defaults) (cls : class) (req : request) : M unit :=
  match getattr cls ("do_" +:+ command req) with
  | Some m => m req
  | None => send (unsupported d req)
  end.

Record server : Type := Server {
  server_address : string * Z;
  RequestHandlerClass : class
}.

Definition address_in_use : exn :=
  OSError "[Errno 98] Address already in use".

(** Modelled from the spec: the listener of the platform's TCP server,
    which is not among the repository's sources.  Creating the server
    binds a listener to the given address at once; when the port is
    already in use the listener cannot bind and the creation raises. *)
Definition TCPServer (address : string * Z) (cls : class) : M server :=
  fun w =>
    if existsb (Z.eqb address.2) (in_use w) then
      (Raised address_in_use, w)
    else
      (Done (Server address cls), with_listener w (Some address)).

Definition server_close (srv : server) : M unit :=
  modify (fun w => with_listener w None).

(** The loop stops on termination or on an error of the listener only:
    an exception of a request handler is reported on standard error and
    the request is dropped. *)
Definition handle_error (e : exn) : M unit :=
  modify (fun w => with_stderr w (stderr w ++ traceback e)%list).

(** Modelled from the spec: the accept loop of the platform's TCP server,
    which is not among the repository's sources, over the events the
    environment delivers.  The loop has no exit of its own: it handles one
    connection after the other, at the end of the observed prefix it is
    waiting for the next one, and it stops only when the process is
    terminated or the listener fails. *)
Fixpoint serve_loop (d : defaults) (srv : server) (evs : list event)
  : M unit :=
  match evs with
  | [] => fun w => (Waiting, w)
  | Connection req :: rest =>
      modify (fun w => with_incoming w rest) >>
      try_except (handle d (RequestHandlerClass srv) req) handle_error >>
      serve_loop d srv rest
  | ListenerError msg :: rest =>
      modify (fun w => with_incoming w rest) >>
      raise (OSError msg)
  | Terminate :: rest =>
      fun w => (Killed, with_incoming w rest)
  end.

Definition serve_forever (d : defaults) (srv : server) : M unit :=
  fun w => serve_loop d srv (incoming w) w.

Definition print (line : string) : M unit :=
  modify (fun w => with_stdout w (stdout w ++ [line])%list).

(** [str] of an integer: its decimal digits, with a minus sign if negative. *)
Definition str (z : Z) : string :=
  DecimalString.NilZero.string_of_int (Z.to_int z).

End Platform.

(** ** src/main.py *)

Module Main.
Import Path Host Py Platform.

Section Program.

Variable d : defaults.

(** [class MyHttpRequestHandler(http.server.SimpleHTTPRequestHandler)]:
    its only method looks [do_GET] up on the parent class and calls it on
    the same instance. *)
Definition MyHttpRequestHandler_do_GET (self : request) : M unit :=
  match getattr (SimpleHTTPRequestHandler d) "do_GET" with
  | Some parent_do_GET => parent_do_GET self
  | None => raise (AttributeError "do_GET")
  end.

Definition MyHttpRequestHandler : class :=
  Class "MyHttpRequestHandler" (SimpleHTTPRequestHandler d)
        [("do_GET", MyHttpRequestHandler_do_GET)].

(** [def run_server(port=8000)] *)
Definition run_server_port_default : Z := 8000.

Definition run_server (port : Z) : M unit :=
  with_ (TCPServer ("", port) MyHttpRequestHandler) server_close
    (fun server =>
       print ("Serving at port " +:+ str port) >>
       serve_forever d server).

(** [if __name__ == "__main__": run_server()].  The argument vector of the
    process is never read. *)
Definition main (argv : list string) : M unit :=
  run_server run_server_port_default.

(** The two states of the server process. *)
Inductive state : Type :=
  | LISTENING
  | STOPPED (exit_status : option Z).   (* [None]: ended by a signal *)

(** Running the script as a process: a normal end of the module exits
    with 0; an exception nobody caught is reported on standard error and
    the exit status is 1; a terminated process loses its listener. *)
Definition python (argv : list string) (w : world) : state * world :=
  match main argv w with
  | (Done _, w') => (STOPPED (Some 0%Z), with_listener w' None)
  | (Raised e, w') =>
      (STOPPED (Some 1%Z),
       with_listener (with_stderr w' (stderr w' ++ traceback e)%list) None)
  | (Waiting, w') => (LISTENING, w')
  | (Killed, w') => (STOPPED None, with_listener w' None)
  end.

(** A second instance started on the same host while the first one is
    listening: a fresh process, for which the first listener's port is
    taken. *)
Definition second_instance (first : world) : world :=
  World (files first) (cwd first)
        (match listener first with
         | Some address => address.2 :: in_use first
         | None => in_use first
         end)
        None [] [] [] [].

(** What a client receives for a request: the answer of [do_GET] for the
    verb GET, the platform's default for any other verb. *)
Definition reply (fs : gmap path node) (root : path) (req : request)
  : response :=
  if String.eqb (command req) "GET"
  then answer d fs root (url_path req)
  else unsupported d req.

(** The requests that reach the loop: those of the connections that come
    before the first event that is not a connection. *)
Fixpoint served (evs : list event) : list request :=
  match evs with
  | Connection req :: rest => req :: served rest
  | _ => []
  end.

End Program.

End Main.

(** ** A small host to run the program on *)

Module Sample.
Import Path Host Py Platform Main.

Definition hi : list Byte.byte := [Byte.x68; Byte.x69].
Definition secret : list Byte.byte := [Byte.x72; Byte.x6f; Byte.x6f; Byte.x74].

Definition platform : defaults :=
  Defaults
    (fun ext => if String.eqb ext ".txt" then "text/plain"
                else if String.eqb ext ".html" then "text/html"
                else "application/octet-stream")
    true 403 403
    (fun _ _ => Response (PLATFORM_DEFAULT 200) (Some "text/html")
                         (PlatformPayload []))
    (fun _ => Response (PLATFORM_DEFAULT 501) None
                       (ErrorPayload "Unsupported method")).

(** The serving root [/srv] holds [hello.txt]; [/etc/passwd] lies outside. *)
Definition tree (passwd : list Byte.byte) : gmap path node :=
  {[ ["srv"] := Dir;
     ["srv"; "hello.txt"] := File true hi;
     ["etc"] := Dir;
     ["etc"; "passwd"] := File true passwd ]}.

Definition host (passwd : list Byte.byte) (taken : list Z)
  (evs : list event) : world :=
  World (tree passwd) ["srv"] taken None evs [] [] [].

End Sample.

(** * Properties *)

(** ** URL paths and their resolution *)

Module PathFacts.
Import Path Host Py Platform.

Lemma append_cons (c : ascii) (s t : string) :
  String c s +:+ t = String c (s +:+ t).
Proof. reflexivity. Qed.

Lemma append_nil_l (t : string) : "" +:+ t = t.
Proof. reflexivity. Qed.

Lemma append_nil_r (s : string) : s +:+ "" = s.
Proof.
  induction s as [|c s IH]; [reflexivity|]. now rewrite append_cons, IH.
Qed.

Lemma append_assoc (a b c : string) : (a +:+ b) +:+ c = a +:+ (b +:+ c).
Proof.
  induction a as [|x a IH]; [reflexivity|]. now rewrite !append_cons, IH.
Qed.

(** Reading a segment without a slash moves it into the accumulator. *)
Lemma split_acc_segment (seg : string) :
  has_slash seg = false ->
  forall cur rest, split_acc cur (seg +:+ rest) = split_acc (cur +:+ seg) rest.
Proof.
  induction seg as [|c seg IH]; intros Hseg cur rest.
  - now rewrite append_nil_l, append_nil_r.
  - simpl in Hseg. apply orb_false_iff in Hseg as [Hc Hseg].
    rewrite append_cons. simpl. rewrite Hc, (IH Hseg).
    now rewrite append_assoc.
Qed.

(** Splitting the URL of a relative path gives its segments back, after
    whatever was read before the first slash. *)
Lemma split_acc_join (rest : list string) :
  forallb (fun s => negb (has_slash s)) rest = true ->
  forall cur, split_acc cur (join rest) = cur :: rest.
Proof.
  induction rest as [|s rest IH]; intros Hrest cur; [reflexivity|].
  simpl in Hrest. apply andb_true_iff in Hrest as [Hs Hrest].
  apply negb_true_iff in Hs. simpl.
  rewrite (split_acc_segment s Hs), append_nil_l. now rewrite (IH Hrest).
Qed.

Lemma entry_names_no_slash (p : path) :
  entry_names p = true -> forallb (fun s => negb (has_slash s)) p = true.
Proof.
  unfold entry_names. induction p as [|s p IH]; simpl; [reflexivity|].
  intros H. apply andb_true_iff in H as [Hs Hp]. rewrite (IH Hp).
  unfold entry_name in Hs.
  repeat (apply andb_true_iff in Hs as [Hs ?]). now rewrite andb_true_r.
Qed.

Lemma split_join (p : path) :
  entry_names p = true -> split (join p) = "" :: p.
Proof.
  intros Hp. apply entry_names_no_slash in Hp. now apply split_acc_join.
Qed.

(** Entry names are pushed as they are. *)
Lemma walk_entry_names (c : bool) (p : path) :
  entry_names p = true ->
  forall stack, walk c stack p = InRoot (rev stack ++ p)%list.
Proof.
  unfold entry_names. induction p as [|s p IH]; simpl; intros Hp stack.
  - now rewrite app_nil_r.
  - apply andb_true_iff in Hp as [Hs Hp]. unfold entry_name in Hs.
    repeat (apply andb_true_iff in Hs as [Hs ?]).
    repeat match goal with
           | H : negb _ = true |- _ => apply negb_true_iff in H; try rewrite H
           end.
    simpl. rewrite (IH Hp). simpl. now rewrite <- app_assoc.
Qed.

(** The URL of a relative path of entry names resolves to that path. *)
Lemma resolve_join (c : bool) (p : path) :
  entry_names p = true -> resolve c (join p) = InRoot p.
Proof.
  intros Hp. unfold resolve. rewrite split_join by assumption.
  change (walk c [] ("" :: p)) with (walk c [] p).
  now rewrite walk_entry_names.
Qed.

Lemma has_slash_app (a b : string) :
  has_slash (a +:+ b) = has_slash a || has_slash b.
Proof.
  induction a as [|c a IH]; [reflexivity|].
  rewrite append_cons. simpl. now rewrite IH, orb_assoc.
Qed.

(** No segment of a split URL contains a slash. *)
Lemma split_acc_no_slash (s : string) :
  forall cur,
    has_slash cur = false ->
    forallb (fun seg => negb (has_slash seg)) (split_acc cur s) = true.
Proof.
  induction s as [|c s IH]; intros cur Hcur; simpl.
  - now rewrite Hcur.
  - destruct (Ascii.eqb c slash) eqn:Hc; simpl.
    + rewrite Hcur. simpl. now apply IH.
    + apply IH. rewrite has_slash_app, Hcur. simpl. now rewrite Hc.
Qed.

(** Walking segments without slashes from a stack of entry names ends on
    a path of entry names, if it ends in the root at all. *)
Lemma walk_names (c : bool) (segs : list string) :
  forallb (fun seg => negb (has_slash seg)) segs = true ->
  forall stack rel,
    forallb entry_name stack = true ->
    walk c stack segs = InRoot rel -> entry_names rel = true.
Proof.
  induction segs as [|seg segs IH]; simpl; intros Hsegs stack rel Hstack.
  - intros [= <-]. unfold entry_names. apply forallb_forall.
    intros x Hx. apply in_rev in Hx.
    now apply (proj1 (forallb_forall _ _) Hstack).
  - apply andb_true_iff in Hsegs as [Hseg Hsegs].
    destruct (String.eqb seg "") eqn:E1; simpl; [now apply IH|].
    destruct (String.eqb seg ".") eqn:E2; simpl; [now apply IH|].
    destruct (String.eqb seg "..") eqn:E3.
    + destruct stack as [|top up].
      * destruct c; [now apply IH | discriminate].
      * simpl in Hstack. apply andb_true_iff in Hstack as [_ Hup].
        now apply IH.
    + apply IH; [assumption|]. simpl. rewrite Hstack, andb_true_r.
      unfold entry_name. now rewrite E1, E2, E3, Hseg.
Qed.

Lemma resolve_names (c : bool) (url : string) (rel : path) :
  resolve c url = InRoot rel -> entry_names rel = true.
Proof.
  unfold resolve, split. apply walk_names; [|reflexivity].
  now apply split_acc_no_slash.
Qed.

(** Under the clamping policy every URL path resolves inside the root. *)
Lemma walk_clamp_total (segs : list string) :
  forall stack, exists rel, walk true stack segs = InRoot rel.
Proof.
  induction segs as [|seg segs IH]; simpl; intros stack; [eauto|].
  destruct (String.eqb seg "" || String.eqb seg "."); [apply IH|].
  destruct (String.eqb seg ".."); [|apply IH].
  destruct stack; apply IH.
Qed.

Lemma resolve_clamp_total (url : string) :
  exists rel, resolve true url = InRoot rel.
Proof. apply walk_clamp_total. Qed.

(** The part of the tree below the root decides every lookup below it. *)
Lemma under_lookup (root : path) (fs : gmap path node) (p : path) :
  root `prefix_of` p -> node_at (under root fs) p = node_at fs p.
Proof.
  intros Hp. unfold node_at, under. apply option_eq. intros x.
  rewrite map_lookup_filter_Some. simpl. tauto.
Qed.

Lemma under_under (root rel : path) (fs : gmap path node) :
  under (root ++ rel)%list (under root fs) = under (root ++ rel)%list fs.
Proof.
  unfold under. apply map_eq. intros k. apply option_eq. intros x.
  rewrite !map_lookup_filter_Some. simpl. split; [tauto|].
  intros [Hk Hpre]. repeat split; try assumption.
  now apply prefix_app_l in Hpre.
Qed.

End PathFacts.

(** ** Which parts of the world a computation can change *)

Module Frame.
Import Path Host Py Platform.

Section Preserves.

Context {X : Type} (f : world -> X).

Lemma preserves_ret {A} (a : A) : preserves f (ret a).
Proof. intros w. reflexivity. Qed.

Lemma preserves_raise {A} (e : exn) : preserves f (@raise A e).
Proof. intros w. reflexivity. Qed.

Lemma preserves_gets {A} (g : world -> A) : preserves f (gets g).
Proof. intros w. reflexivity. Qed.

Lemma preserves_modify (g : world -> world) :
  (forall w, f (g w) = f w) -> preserves f (modify g).
Proof. intros Hg w. apply Hg. Qed.

Lemma preserves_bind {A B} (m : M A) (k : A -> M B) :
  preserves f m -> (forall a, preserves f (k a)) -> preserves f (bind m k).
Proof.
  intros Hm Hk w. unfold bind. specialize (Hm w).
  destruct (m w) as [[a| e | |] w1]; simpl in *; try assumption.
  now rewrite Hk.
Qed.

Lemma preserves_try_except {A} (m : M A) (h : exn -> M A) :
  preserves f m -> (forall e, preserves f (h e)) ->
  preserves f (try_except m h).
Proof.
  intros Hm Hh w. unfold try_except. specialize (Hm w).
  destruct (m w) as [[a| e | |] w1]; simpl in *; try assumption.
  now rewrite Hh.
Qed.

Lemma preserves_with {S A} (enter : M S) (exit : S -> M unit)
  (body : S -> M A) :
  preserves f enter -> (forall s, preserves f (exit s)) ->
  (forall s, preserves f (body s)) -> preserves f (with_ enter exit body).
Proof.
  intros He Hx Hb w. unfold with_. specialize (He w).
  destruct (enter w) as [[s| e | |] w1]; simpl in *; try assumption.
  specialize (Hb s w1).
  destruct (body s w1) as [[a| e | |] w2]; simpl in *;
    try (now rewrite Hb).
  - specialize (Hx s w2).
    destruct (exit s w2) as [[u| e | |] w3]; simpl in *; congruence.
  - rewrite Hx. congruence.
Qed.

End Preserves.

(** What [do_GET] does to the world: it appends its answer to what was
    written to the client, and nothing else. *)
Lemma do_GET_answer (d : defaults) (self : request) (w : world) :
  do_GET d self w =
  (Done tt,
   with_wfile w (wfile w ++ [answer d (files w) (cwd w) (url_path self)])).
Proof.
  unfold do_GET, answer, bind, getcwd, stat, listing, send_error, send,
    gets, modify.
  destruct (resolve (clamp d) (url_path self)) as [rel|]; [|reflexivity].
  simpl.
  destruct (node_at (files w) (cwd w ++ rel)%list) as [[[|] content|]|];
    reflexivity.
Qed.

End Frame.

(** ** Handling a GET request *)

Module Serving.
Import Path Host Py Platform Main PathFacts Frame.

(** A request for a verb the handler class has a method for goes to
    [do_GET] of the platform; any other request gets the platform's
    default answer. *)
Lemma handle_cases (d : defaults) (req : request) :
  handle d (MyHttpRequestHandler d) req = do_GET d req \/
  handle d (MyHttpRequestHandler d) req = send (unsupported d req).
Proof.
  unfold handle, MyHttpRequestHandler, SimpleHTTPRequestHandler. simpl.
  match goal with
  | |- context [if ?b then _ else _] => destruct b
  end; [left|right]; reflexivity.
Qed.

Lemma handle_GET (d : defaults) (url : string) (hs : list (string * string)) :
  handle d (MyHttpRequestHandler d) (Request "GET" url hs) =
  do_GET d (Request "GET" url hs).
Proof. reflexivity. Qed.

Lemma handle_GET_answer (d : defaults) (url : string)
  (hs : list (string * string)) (w : world) :
  handle d (MyHttpRequestHandler d) (Request "GET" url hs) w =
  (Done tt, with_wfile w (wfile w ++ [answer d (files w) (cwd w) url])).
Proof. rewrite handle_GET. apply do_GET_answer. Qed.

(** The subclass answers every request, of whatever verb, as its base
    class does: [do_GET] is passed through and the rest is inherited. *)
Lemma handle_as_base (d : defaults) (req : request) :
  handle d (MyHttpRequestHandler d) req
    = handle d (SimpleHTTPRequestHandler d) req.
Proof.
  unfold handle, MyHttpRequestHandler, SimpleHTTPRequestHandler. simpl.
  match goal with
  | |- context [if ?b then _ else _] => destruct b
  end; reflexivity.
Qed.

(** The handler class touches nothing but the client side of the socket. *)
Lemma handle_preserves {X} (f : world -> X) (d : defaults) (req : request) :
  (forall w l, f (with_wfile w l) = f w) ->
  preserves f (handle d (MyHttpRequestHandler d) req).
Proof.
  intros Hf w. destruct (handle_cases d req) as [-> | ->].
  - rewrite do_GET_answer. apply Hf.
  - apply Hf.
Qed.

(** C1.  The overridden [do_GET] of [MyHttpRequestHandler] is a
    pass-through: on every instance it does what the parent's [do_GET]
    does, and every GET request is handled by the subclass exactly as it
    is by the base class (same result, same world afterwards). *)
Theorem do_GET_override_is_pass_through (d : defaults) (url : string)
  (hs : list (string * string)) (w : world) :
  let self := Request "GET" url hs in
  getattr (MyHttpRequestHandler d) "do_GET"
    = Some (MyHttpRequestHandler_do_GET d) /\
  MyHttpRequestHandler_do_GET d self w = Platform.do_GET d self w /\
  handle d (MyHttpRequestHandler d) self w
    = handle d (SimpleHTTPRequestHandler d) self w.
Proof. repeat split. Qed.

(** C2.  An existing readable regular file under the serving root,
    requested by the URL of its relative path, is answered with status
    200, the content type of its extension, and exactly its bytes. *)
Theorem existing_file_is_served (d : defaults) (w : world) (rel : path)
  (content : list Byte.byte) (hs : list (string * string)) :
  entry_names rel = true ->
  node_at (files w) (cwd w ++ rel)%list = Some (File true content) ->
  let r := Response OK (Some (guess_type d (extension rel)))
                    (FileBytes content) in
  handle d (MyHttpRequestHandler d) (Request "GET" (join rel) hs) w
    = (Done tt, with_wfile w (wfile w ++ [r])) /\
  status_code (resp_status r) = 200%Z.
Proof.
  intros Hrel Hfile r. split; [|reflexivity].
  rewrite handle_GET_answer. unfold answer.
  now rewrite (resolve_join (clamp d) rel Hrel), Hfile.
Qed.

(** C3.  A URL path that resolves inside the serving root to a place
    where there is no file is answered with status 404 and an error
    body. *)
Theorem missing_file_is_not_found (d : defaults) (w : world) (url : string)
  (rel : path) (hs : list (string * string)) :
  resolve (clamp d) url = InRoot rel ->
  node_at (files w) (cwd w ++ rel)%list = None ->
  let r := Response NOT_FOUND None (ErrorPayload "File not found") in
  handle d (MyHttpRequestHandler d) (Request "GET" url hs) w
    = (Done tt, with_wfile w (wfile w ++ [r])) /\
  status_code (resp_status r) = 404%Z.
Proof.
  intros Hres Hnone r. split; [|reflexivity].
  rewrite handle_GET_answer. unfold answer. now rewrite Hres, Hnone.
Qed.

(** What is served depends on the part of the tree under the root only. *)
Lemma answer_under (d : defaults) (fs : gmap path node) (root : path)
  (url : string) :
  answer d fs root url = answer d (under root fs) root url.
Proof.
  unfold answer. destruct (resolve (clamp d) url) as [rel|]; [|reflexivity].
  rewrite under_lookup by (now exists rel). now rewrite under_under.
Qed.

(** Every URL path is either rejected as an escape or served as the
    in-root path it resolves to. *)
Lemma answer_normal_form (d : defaults) (fs : gmap path node) (root : path)
  (url : string) :
  answer d fs root url
    = Response (CLIENT_ERROR (escape_code d)) None (ErrorPayload "Forbidden")
  \/ exists rel, entry_names rel = true /\
                 answer d fs root url = answer d fs root (join rel).
Proof.
  unfold answer at 1 2.
  destruct (resolve (clamp d) url) as [rel|] eqn:Hres; [right|now left].
  pose proof (resolve_names _ _ _ Hres) as Hrel. exists rel. split; [easy|].
  unfold answer. now rewrite (resolve_join (clamp d) rel Hrel).
Qed.

(** C4.  Whatever the URL path, parent-directory segments included, the
    response is decided by the tree under the serving root alone: two
    hosts that agree there get the same response, however they differ
    elsewhere.  The response is the platform's error for an escape, or
    what the request for an in-root path of plain entry names gets. *)
Theorem traversal_never_leaves_root (d : defaults) (w1 w2 : world)
  (url : string) (hs : list (string * string)) :
  cwd w1 = cwd w2 ->
  under (cwd w1) (files w1) = under (cwd w2) (files w2) ->
  exists r,
    handle d (MyHttpRequestHandler d) (Request "GET" url hs) w1
      = (Done tt, with_wfile w1 (wfile w1 ++ [r])) /\
    handle d (MyHttpRequestHandler d) (Request "GET" url hs) w2
      = (Done tt, with_wfile w2 (wfile w2 ++ [r])) /\
    (r = Response (CLIENT_ERROR (escape_code d)) None
                  (ErrorPayload "Forbidden")
     \/ exists rel, entry_names rel = true /\
                    r = answer d (under (cwd w1) (files w1)) (cwd w1)
                               (join rel)).
Proof.
  intros Hcwd Hunder. exists (answer d (files w1) (cwd w1) url).
  split; [apply handle_GET_answer|]. split.
  - rewrite handle_GET_answer. do 3 f_equal.
    rewrite (answer_under d (files w1)), (answer_under d (files w2)).
    now rewrite Hunder, Hcwd.
  - rewrite (answer_under d (files w1)).
    apply answer_normal_form.
Qed.

End Serving.

(** ** Startup and the accept loop *)

Module Startup.
Import Path Host Py Platform Main PathFacts Frame Serving.

(** Case analysis on every test of a conditional in the goal. *)
Ltac case_ifs :=
  repeat match goal with
         | |- context [if ?b then _ else _] => destruct b
         end.

(** Creating the server for the default port fails exactly when the port
    is taken. *)
Lemma TCPServer_default (cls : class) (w : world) :
  TCPServer ("", run_server_port_default) cls w =
  if existsb (Z.eqb 8000) (in_use w)
  then (Raised address_in_use, w)
  else (Done (Server ("", 8000%Z) cls),
        with_listener w (Some ("", 8000%Z))).
Proof. reflexivity. Qed.

(** A failed creation leaves the world as it was. *)
Lemma TCPServer_raised (address : string * Z) (cls : class) (w w1 : world)
  (e : exn) :
  TCPServer address cls w = (Raised e, w1) -> w1 = w.
Proof.
  unfold TCPServer. case_ifs; congruence.
Qed.

Lemma TCPServer_done (address : string * Z) (cls : class) (w w1 : world)
  (srv : server) :
  TCPServer address cls w = (Done srv, w1) ->
  RequestHandlerClass srv = cls /\
  w1 = with_listener w (Some (server_address srv)).
Proof.
  unfold TCPServer. case_ifs; intros [= <- <-]; split; reflexivity.
Qed.

(** One request: the handler completes and writes one response. *)
Lemma handle_done (d : defaults) (req : request) (w : world) :
  exists r,
    try_except (handle d (MyHttpRequestHandler d) req) handle_error w
    = (Done tt, with_wfile w (wfile w ++ [r])).
Proof.
  unfold try_except. destruct (handle_cases d req) as [-> | ->].
  - rewrite do_GET_answer. eauto.
  - unfold send, modify. eauto.
Qed.

Section Loop.

Variable d : defaults.
Variable srv : server.
Hypothesis srv_class : RequestHandlerClass srv = MyHttpRequestHandler d.

(** The loop changes nothing that writing to clients, consuming events
    and reporting on standard error do not change. *)
Lemma serve_loop_preserves {X} (f : world -> X) (evs : list event) :
  (forall w l, f (with_wfile w l) = f w) ->
  (forall w l, f (with_incoming w l) = f w) ->
  (forall w l, f (with_stderr w l) = f w) ->
  preserves f (serve_loop d srv evs).
Proof.
  intros Hw Hi He. induction evs as [|[req|msg|] rest IH]; simpl.
  - intros w. reflexivity.
  - apply preserves_bind; [now apply preserves_modify|]. intros _.
    apply preserves_bind; [|intros _; exact IH].
    rewrite srv_class. apply preserves_try_except.
    + now apply handle_preserves.
    + intros e. now apply preserves_modify.
  - apply preserves_bind; [now apply preserves_modify|]. intros _.
    apply preserves_raise.
  - intros w. apply Hi.
Qed.

(** How the loop can end, by the events it was given. *)
Lemma serve_loop_end (evs : list event) :
  forall w,
    match (serve_loop d srv evs w).1 with
    | Done _ => False
    | Waiting => forallb is_connection evs = true
    | Killed => In Terminate evs
    | Raised e => exists msg, e = OSError msg /\ In (ListenerError msg) evs
    end.
Proof.
  induction evs as [|[req|msg|] rest IH]; intros w; simpl.
  - reflexivity.
  - unfold bind at 1. unfold modify at 1. unfold bind at 1.
    rewrite srv_class.
    destruct (handle_done d req (with_incoming w rest)) as [r ->].
    specialize (IH (with_wfile (with_incoming w rest)
                      (wfile (with_incoming w rest) ++ [r]))).
    destruct (serve_loop d srv rest _) as [[u|e| |] w']; simpl in *.
    + assumption.
    + destruct IH as [m [-> Hin]]. eauto.
    + assumption.
    + now right.
  - eauto.
  - now left.
Qed.

(** Under connections only, the loop is still waiting and has answered
    each of them. *)
Lemma serve_loop_connections (evs : list event) :
  forallb is_connection evs = true ->
  forall w, exists w',
    serve_loop d srv evs w = (Waiting, w') /\
    length (wfile w') = (length (wfile w) + length evs)%nat.
Proof.
  induction evs as [|[req|msg|] rest IH]; simpl; intros Hevs w;
    try discriminate.
  - exists w. split; [reflexivity | lia].
  - unfold bind at 1. unfold modify at 1. unfold bind at 1.
    rewrite srv_class.
    destruct (handle_done d req (with_incoming w rest)) as [r ->].
    destruct (IH Hevs (with_wfile (with_incoming w rest)
                         (wfile (with_incoming w rest) ++ [r])))
      as [w' [-> Hlen]].
    exists w'. split; [reflexivity|].
    rewrite Hlen. simpl. rewrite length_app. simpl. lia.
Qed.

End Loop.

(** [run_server] when the server cannot be created: the exception leaves
    the function at once. *)
Lemma run_server_raised (d : defaults) (port : Z) (w w1 : world) (e : exn) :
  TCPServer ("", port) (MyHttpRequestHandler d) w = (Raised e, w1) ->
  run_server d port w = (Raised e, w).
Proof.
  intros H. pose proof (TCPServer_raised _ _ _ _ _ H) as ->.
  unfold run_server, with_. now rewrite H.
Qed.

(** [run_server] once the server exists: the line is printed, then the
    loop runs on what the environment delivers. *)
Lemma run_server_started (d : defaults) (port : Z) (w w1 : world)
  (srv : server) :
  TCPServer ("", port) (MyHttpRequestHandler d) w = (Done srv, w1) ->
  run_server d port w =
  match serve_loop d srv (incoming w)
          (with_stdout w1 (stdout w ++ ["Serving at port " +:+ str port]))
  with
  | (Done a, w3) => (Done a, with_listener w3 None)
  | (Raised e, w3) => (Raised e, with_listener w3 None)
  | (Waiting, w3) => (Waiting, w3)
  | (Killed, w3) => (Killed, w3)
  end.
Proof.
  intros H. destruct (TCPServer_done _ _ _ _ _ H) as [_ ->].
  unfold run_server, with_. rewrite H.
  unfold bind, print, modify, serve_forever. simpl.
  destruct (serve_loop d srv (incoming w) _) as [[a|e| |] w3]; reflexivity.
Qed.

(** The state of the process by the events it receives, once it has its
    listener. *)
Lemma python_started (d : defaults) (argv : list string) (w w1 : world)
  (srv : server) :
  TCPServer ("", run_server_port_default) (MyHttpRequestHandler d) w
    = (Done srv, w1) ->
  exists r w3,
    serve_loop d srv (incoming w)
      (with_stdout w1 (stdout w ++ ["Serving at port 8000"])) = (r, w3) /\
    stdout w3 = (stdout w ++ ["Serving at port 8000"])%list /\
    listener w3 = Some ("", 8000%Z) /\
    match r with
    | Done _ => False
    | Waiting => python d argv w = (LISTENING, w3) /\
                 forallb is_connection (incoming w) = true
    | Killed => python d argv w = (STOPPED None, with_listener w3 None) /\
                In Terminate (incoming w)
    | Raised e =>
        python d argv w =
          (STOPPED (Some 1%Z),
           with_listener
             (with_stderr (with_listener w3 None)
                          (stderr w3 ++ traceback e)) None) /\
        exists msg, e = OSError msg /\ In (ListenerError msg) (incoming w)
    end.
Proof.
  intros H. pose proof (run_server_started _ _ _ _ _ H) as Hrun.
  destruct (TCPServer_done _ _ _ _ _ H) as [Hcls Hw1].
  rewrite TCPServer_default in H.
  destruct (existsb (Z.eqb 8000) (in_use w)); [discriminate|].
  injection H as <- <-. clear Hw1.
  set (srv := Server ("", 8000%Z) (MyHttpRequestHandler d)) in *.
  set (w2 := with_stdout _ _) in Hrun.
  pose proof (serve_loop_end d srv Hcls (incoming w) w2) as Hend.
  pose proof (serve_loop_preserves d srv Hcls stdout (incoming w)
                (fun _ _ => eq_refl) (fun _ _ => eq_refl)
                (fun _ _ => eq_refl) w2) as Hout.
  pose proof (serve_loop_preserves d srv Hcls listener (incoming w)
                (fun _ _ => eq_refl) (fun _ _ => eq_refl)
                (fun _ _ => eq_refl) w2) as Hlis.
  unfold python, main. rewrite Hrun.
  change (with_stdout _ (stdout w ++ ["Serving at port 8000"])) with w2.
  destruct (serve_loop d srv (incoming w) w2) as [r w3]. simpl in *.
  exists r, w3. repeat split; try assumption.
  destruct r as [a|e| |]; try easy.
Qed.

(** C5.  When the listener for the default port cannot be created, the
    process stops with exit status 1 after the report of the exception on
    standard error: it is not listening on any port, has printed nothing
    on standard output, has served nothing, and has made no further
    attempt. *)
Theorem bind_failure_is_fatal (d : defaults) (argv : list string)
  (w w1 : world) (e : exn) :
  TCPServer ("", run_server_port_default) (MyHttpRequestHandler d) w
    = (Raised e, w1) ->
  python d argv w =
    (STOPPED (Some 1%Z),
     with_listener (with_stderr w (stderr w ++ traceback e)) None) /\
  (1 <> 0)%Z /\
  traceback e <> [] /\
  (python d argv w).1 <> LISTENING /\
  listener (python d argv w).2 = None /\
  wfile (python d argv w).2 = wfile w.
Proof.
  intros H. pose proof (run_server_raised _ _ _ _ _ H) as Hrun.
  assert (python d argv w =
            (STOPPED (Some 1%Z),
             with_listener (with_stderr w (stderr w ++ traceback e)) None))
    as Hpy by (unfold python, main; now rewrite Hrun).
  rewrite Hpy. repeat split; discriminate.
Qed.

(** C6.  Whatever the argument vector, the program runs as with no
    arguments, and what it binds is the address with the empty host and
    port 8000: with no event pending it ends up listening there if port
    8000 is free, and is not listening at all if port 8000 is taken. *)
Theorem default_port_is_bound (d : defaults) (argv : list string)
  (w : world) :
  python d argv w = python d [] w /\
  run_server_port_default = 8000%Z /\
  (incoming w = [] ->
   if existsb (Z.eqb 8000) (in_use w)
   then (python d argv w).1 = STOPPED (Some 1%Z) /\
        listener (python d argv w).2 = None
   else python d argv w =
          (LISTENING,
           with_stdout (with_listener w (Some ("", 8000%Z)))
                       (stdout w ++ ["Serving at port 8000"]))).
Proof.
  split; [reflexivity|]. split; [reflexivity|]. intros Hin.
  unfold python, main, run_server, with_.
  rewrite TCPServer_default.
  destruct (existsb (Z.eqb 8000) (in_use w)).
  - split; reflexivity.
  - unfold bind, print, modify, serve_forever. simpl. rewrite Hin.
    reflexivity.
Qed.

(** C7.  Once the listener is bound, the server is in state LISTENING
    after every sequence of client connections, each of them answered; it
    never stops with exit status 0, and when it is stopped the events
    contain a termination of the process or an error of the listener. *)
Theorem accept_loop_never_returns (d : defaults) (argv : list string)
  (w w1 : world) (srv : server) :
  TCPServer ("", run_server_port_default) (MyHttpRequestHandler d) w
    = (Done srv, w1) ->
  (forallb is_connection (incoming w) = true ->
   (python d argv w).1 = LISTENING /\
   listener (python d argv w).2 = Some ("", 8000%Z) /\
   length (wfile (python d argv w).2)
     = (length (wfile w) + length (incoming w))%nat) /\
  (python d argv w).1 <> STOPPED (Some 0%Z) /\
  ((python d argv w).1 = LISTENING \/
   ((python d argv w).1 = STOPPED None /\ In Terminate (incoming w)) \/
   ((python d argv w).1 = STOPPED (Some 1%Z) /\
    exists msg, In (ListenerError msg) (incoming w))).
Proof.
  intros H.
  destruct (python_started d argv _ _ _ H) as (r & w3 & Hloop & _ & Hlis & Hr).
  destruct (TCPServer_done _ _ _ _ _ H) as [Hcls Hw1].
  split; [|split].
  - intros Hconn.
    destruct (serve_loop_connections d srv Hcls _ Hconn
                (with_stdout w1 (stdout w ++ ["Serving at port 8000"])))
      as (w' & Hw' & Hlen).
    rewrite Hw' in Hloop. injection Hloop as <- <-.
    destruct Hr as [-> _]. simpl. repeat split; try assumption.
    rewrite Hlen, Hw1. reflexivity.
  - destruct r as [a|e| |]; [easy| | |]; destruct Hr as [-> _]; discriminate.
  - destruct r as [a|e| |]; [easy| | |].
    + destruct Hr as [-> (msg & _ & Hin)]. right. right. eauto.
    + destruct Hr as [-> _]. now left.
    + destruct Hr as [-> Hin]. right. left. eauto.
Qed.

(** C8.  On a successful start the program prints exactly one line,
    [Serving at port 8000], which ends with the decimal digits of the
    port of the listener; no later event adds to standard output. *)
Theorem startup_announces_port (d : defaults) (argv : list string)
  (w w1 : world) (srv : server) :
  TCPServer ("", run_server_port_default) (MyHttpRequestHandler d) w
    = (Done srv, w1) ->
  stdout (python d argv w).2 = (stdout w ++ ["Serving at port 8000"])%list /\
  "Serving at port 8000" = "Serving at port " +:+ str (server_address srv).2 /\
  listener w1 = Some (server_address srv).
Proof.
  intros H.
  destruct (python_started d argv _ _ _ H) as (r & w3 & _ & Hout & _ & Hr).
  destruct (TCPServer_done _ _ _ _ _ H) as [_ Hw1].
  rewrite TCPServer_default in H.
  destruct (existsb (Z.eqb 8000) (in_use w)); [discriminate|].
  injection H as <- _. split; [|split].
  - destruct r as [a|e| |]; [easy| | |]; destruct Hr as [-> _]; exact Hout.
  - reflexivity.
  - now rewrite Hw1.
Qed.

(** C10.  When the server cannot be created, [run_server] raises before
    its [print]: standard output is what it was, for every port, and so it
    is after the whole run of the program. *)
Theorem no_announcement_without_bind (d : defaults) (port : Z)
  (w w1 : world) (e : exn) :
  TCPServer ("", port) (MyHttpRequestHandler d) w = (Raised e, w1) ->
  run_server d port w = (Raised e, w) /\
  stdout (run_server d port w).2 = stdout w /\
  (port = run_server_port_default ->
   forall argv, stdout (python d argv w).2 = stdout w).
Proof.
  intros H. pose proof (run_server_raised _ _ _ _ _ H) as Hrun.
  rewrite Hrun. repeat split. intros -> argv.
  unfold python, main. now rewrite Hrun.
Qed.

(** A second instance on the same host fails to start while the first
    one is listening. *)
Lemma second_instance_fails (d : defaults) (argv : list string)
  (first : world) :
  listener first = Some ("", 8000%Z) ->
  (python d argv (second_instance first)).1 = STOPPED (Some 1%Z) /\
  stdout (python d argv (second_instance first)).2 = [] /\
  listener (python d argv (second_instance first)).2 = None.
Proof.
  intros Hl. unfold python, main, run_server, with_.
  rewrite TCPServer_default. unfold second_instance at 1. simpl.
  rewrite Hl. simpl. repeat split.
Qed.

(** The whole run changes nothing but the listener, the pending events,
    the two output streams and what was written to clients. *)
Lemma python_preserves {X} (f : world -> X) (d : defaults)
  (argv : list string) (w : world) :
  (forall w l, f (with_wfile w l) = f w) ->
  (forall w l, f (with_incoming w l) = f w) ->
  (forall w l, f (with_stderr w l) = f w) ->
  (forall w l, f (with_stdout w l) = f w) ->
  (forall w l, f (with_listener w l) = f w) ->
  f (python d argv w).2 = f w.
Proof.
  intros Hw Hi He Ho Hl. unfold python, main.
  destruct (TCPServer ("", run_server_port_default) (MyHttpRequestHandler d) w)
    as [[srv|e| |] w1] eqn:H.
  - rewrite (run_server_started _ _ _ _ _ H).
    destruct (TCPServer_done _ _ _ _ _ H) as [Hcls ->].
    match goal with
    | |- context [serve_loop d srv ?evs ?w2] =>
        pose proof (serve_loop_preserves d srv Hcls f evs Hw Hi He w2) as Hf;
        destruct (serve_loop d srv evs w2) as [[a|e| |] w3]
    end; simpl in *; rewrite ?Hl, ?He, ?Hl, Hf, Ho, Hl; reflexivity.
  - rewrite (run_server_raised _ _ _ _ _ H). simpl. now rewrite Hl, He.
  - revert H. unfold TCPServer. case_ifs; discriminate.
  - revert H. unfold TCPServer. case_ifs; discriminate.
Qed.

End Startup.

(** ** Effects of a request *)

Module Effects.
Import Path Host Py Platform Main PathFacts Frame Serving Startup.

(** C9.  Handling a GET request completes and changes the world in one
    place only: one response is appended to what was written to the
    client.  The file tree, the working directory, the ports, the pending
    events and both output streams are as before; and the file tree and
    the working directory are also unchanged by a whole run of the
    program, whatever requests it serves. *)
Theorem get_only_writes_the_response (d : defaults) (url : string)
  (hs : list (string * string)) (argv : list string) (w : world) :
  (exists r,
     handle d (MyHttpRequestHandler d) (Request "GET" url hs) w
       = (Done tt, with_wfile w (wfile w ++ [r]))) /\
  files (handle d (MyHttpRequestHandler d) (Request "GET" url hs) w).2
    = files w /\
  files (python d argv w).2 = files w /\
  cwd (python d argv w).2 = cwd w.
Proof.
  split; [|split; [|split]].
  - rewrite handle_GET_answer. eauto.
  - now rewrite handle_GET_answer.
  - now apply python_preserves.
  - now apply python_preserves.
Qed.

End Effects.

(** ** The theorems at work on the sample host *)

Module Witnesses.
Import Path Host Py Platform Main Serving Startup Sample.

(** [GET /hello.txt] on the sample host. *)
Lemma existing_file_is_served_witness :
  let w := host secret [] [] in
  entry_names ["hello.txt"] = true /\
  node_at (files w) (cwd w ++ ["hello.txt"])%list = Some (File true hi) /\
  handle platform (MyHttpRequestHandler platform)
         (Request "GET" "/hello.txt" []) w
    = (Done tt,
       with_wfile w [Response OK (Some "text/plain") (FileBytes hi)]).
Proof.
  intros w. split; [reflexivity|]. split; [reflexivity|].
  exact (proj1 (existing_file_is_served platform w ["hello.txt"] hi []
                  eq_refl eq_refl)).
Defined.

(** [GET /does-not-exist.txt] on the sample host. *)
Lemma missing_file_is_not_found_witness :
  let w := host secret [] [] in
  resolve (clamp platform) "/does-not-exist.txt"
    = InRoot ["does-not-exist.txt"] /\
  node_at (files w) (cwd w ++ ["does-not-exist.txt"])%list = None /\
  handle platform (MyHttpRequestHandler platform)
         (Request "GET" "/does-not-exist.txt" []) w
    = (Done tt,
       with_wfile w [Response NOT_FOUND None (ErrorPayload "File not found")]).
Proof.
  intros w. split; [reflexivity|]. split; [reflexivity|].
  exact (proj1 (missing_file_is_not_found platform w "/does-not-exist.txt"
                  ["does-not-exist.txt"] [] eq_refl eq_refl)).
Defined.

(** Two hosts that differ in [/etc/passwd] only answer
    [GET /../etc/passwd] alike. *)
Lemma traversal_never_leaves_root_witness :
  let w1 := host secret [] [] in
  let w2 := host hi [] [] in
  cwd w1 = cwd w2 /\
  under (cwd w1) (files w1) = under (cwd w2) (files w2) /\
  exists r,
    handle platform (MyHttpRequestHandler platform)
           (Request "GET" "/../etc/passwd" []) w1
      = (Done tt, with_wfile w1 (wfile w1 ++ [r])) /\
    handle platform (MyHttpRequestHandler platform)
           (Request "GET" "/../etc/passwd" []) w2
      = (Done tt, with_wfile w2 (wfile w2 ++ [r])).
Proof.
  intros w1 w2.
  assert (Hunder : under (cwd w1) (files w1) = under (cwd w2) (files w2))
    by (vm_compute; reflexivity).
  split; [reflexivity|]. split; [exact Hunder|].
  destruct (traversal_never_leaves_root platform w1 w2 "/../etc/passwd" []
              eq_refl Hunder) as (r & H1 & H2 & _).
  exists r. split; assumption.
Defined.

(** Port 8000 taken: the process stops with status 1. *)
Lemma bind_failure_is_fatal_witness :
  let w := host secret [8000%Z] [] in
  TCPServer ("", run_server_port_default) (MyHttpRequestHandler platform) w
    = (Raised address_in_use, w) /\
  python platform [] w =
    (STOPPED (Some 1%Z),
     with_listener (with_stderr w (stderr w ++ traceback address_in_use))
                   None).
Proof.
  intros w. split; [reflexivity|].
  exact (proj1 (bind_failure_is_fatal platform [] w w address_in_use
                  eq_refl)).
Defined.

(** Port 8000 free and no event pending: listening on port 8000, whatever
    the arguments. *)
Lemma default_port_is_bound_witness :
  let w := host secret [] [] in
  incoming w = [] /\
  python platform ["--port"; "9000"] w =
    (LISTENING,
     with_stdout (with_listener w (Some ("", 8000%Z)))
                 ["Serving at port 8000"]).
Proof.
  intros w. split; [reflexivity|].
  exact (proj2 (proj2 (default_port_is_bound platform ["--port"; "9000"] w))
               eq_refl).
Defined.

(** Two requests served: still listening. *)
Lemma accept_loop_never_returns_witness :
  let w := host secret []
             [Connection (GET "/hello.txt"); Connection (GET "/nope")] in
  let srv := Server ("", 8000%Z) (MyHttpRequestHandler platform) in
  TCPServer ("", run_server_port_default) (MyHttpRequestHandler platform) w
    = (Done srv, with_listener w (Some ("", 8000%Z))) /\
  forallb is_connection (incoming w) = true /\
  (python platform [] w).1 = LISTENING.
Proof.
  intros w srv. split; [reflexivity|]. split; [reflexivity|].
  exact (proj1 (proj1 (accept_loop_never_returns platform [] w _ srv eq_refl)
                      eq_refl)).
Defined.

(** The one line of a successful start. *)
Lemma startup_announces_port_witness :
  let w := host secret []
             [Connection (GET "/hello.txt"); Terminate] in
  let srv := Server ("", 8000%Z) (MyHttpRequestHandler platform) in
  TCPServer ("", run_server_port_default) (MyHttpRequestHandler platform) w
    = (Done srv, with_listener w (Some ("", 8000%Z))) /\
  stdout (python platform [] w).2 = ["Serving at port 8000"].
Proof.
  intros w srv. split; [reflexivity|].
  exact (proj1 (startup_announces_port platform [] w _ srv eq_refl)).
Defined.

(** Nothing is printed when port 8000 is taken. *)
Lemma no_announcement_without_bind_witness :
  let w := host secret [8000%Z] [] in
  TCPServer ("", 8000%Z) (MyHttpRequestHandler platform) w
    = (Raised address_in_use, w) /\
  stdout (run_server platform 8000 w).2 = [].
Proof.
  intros w. split; [reflexivity|].
  exact (proj1 (proj2 (no_announcement_without_bind platform 8000 w w
                         address_in_use eq_refl))).
Defined.

End Witnesses.

(** ** Further behaviour of the handler class and of [run_server] *)

Module Behaviour.
Import Path Host Py Platform Main PathFacts Frame Serving Startup.

(** One request, of whatever verb: the handler completes and appends the
    reply to what was written to the client. *)
Lemma handle_reply (d : defaults) (req : request) (w : world) :
  handle d (MyHttpRequestHandler d) req w =
  (Done tt, with_wfile w (wfile w ++ [reply d (files w) (cwd w) req])).
Proof.
  unfold handle, reply, MyHttpRequestHandler, SimpleHTTPRequestHandler.
  simpl. change ("" +:+ command req) with (command req).
  destruct (String.eqb (command req) "GET").
  - apply do_GET_answer.
  - reflexivity.
Qed.

(** What the loop writes to clients: the replies to the served requests,
    in their order, each computed on the tree the loop started with. *)
Lemma serve_loop_wfile (d : defaults) (srv : server) (evs : list event) :
  RequestHandlerClass srv = MyHttpRequestHandler d ->
  forall w,
    wfile (serve_loop d srv evs w).2 =
    (wfile w ++ map (reply d (files w) (cwd w)) (served evs))%list.
Proof.
  intros Hcls. induction evs as [|[req|msg|] rest IH]; intros w; simpl.
  - now rewrite app_nil_r.
  - unfold bind at 1. unfold modify at 1. unfold bind at 1.
    unfold try_except. rewrite Hcls, handle_reply.
    rewrite IH. simpl. now rewrite <- app_assoc.
  - now rewrite app_nil_r.
  - now rewrite app_nil_r.
Qed.

(** X1.  For every port, when the server can be created [run_server]
    binds the address with the empty host and that port, and adds to
    standard output the one line [Serving at port] followed by the decimal
    digits of the port, whatever events follow. *)
Theorem run_server_announces_its_port (d : defaults) (port : Z)
  (w w1 : world) (srv : server) :
  TCPServer ("", port) (MyHttpRequestHandler d) w = (Done srv, w1) ->
  server_address srv = ("", port) /\
  listener w1 = Some ("", port) /\
  stdout (run_server d port w).2
    = (stdout w ++ ["Serving at port " +:+ str port])%list.
Proof.
  intros H. pose proof (run_server_started _ _ _ _ _ H) as Hrun.
  destruct (TCPServer_done _ _ _ _ _ H) as [Hcls Hw1].
  assert (Haddr : server_address srv = ("", port)).
  { revert H. unfold TCPServer. case_ifs; [discriminate|].
    now intros [= <- _]. }
  split; [exact Haddr|]. split; [now rewrite Hw1, Haddr|].
  rewrite Hrun.
  match goal with
  | |- context [serve_loop d srv ?evs ?w2] =>
      pose proof (serve_loop_preserves d srv Hcls stdout evs
                    (fun _ _ => eq_refl) (fun _ _ => eq_refl)
                    (fun _ _ => eq_refl) w2) as Hout;
      destruct (serve_loop d srv evs w2) as [[a|e| |] w3]
  end; exact Hout.
Qed.


(** X3.  The [with] block of [run_server] closes the server when an
    exception leaves it: after a successful bind, an exception of the loop
    is raised again with no listener left, and while the loop is waiting
    the listener is the one that was bound. *)
Theorem with_block_closes_the_server (d : defaults) (port : Z)
  (w w1 : world) (srv : server) :
  TCPServer ("", port) (MyHttpRequestHandler d) w = (Done srv, w1) ->
  (forall e, (run_server d port w).1 = Raised e ->
             listener (run_server d port w).2 = None) /\
  ((run_server d port w).1 = Waiting ->
   listener (run_server d port w).2 = Some ("", port)).
Proof.
  intros H. pose proof (run_server_started _ _ _ _ _ H) as Hrun.
  destruct (TCPServer_done _ _ _ _ _ H) as [Hcls Hw1].
  assert (Haddr : server_address srv = ("", port)).
  { revert H. unfold TCPServer. case_ifs; [discriminate|].
    now intros [= <- _]. }
  rewrite Hrun.
  match goal with
  | |- context [serve_loop d srv ?evs ?w2] =>
      pose proof (serve_loop_preserves d srv Hcls listener evs
                    (fun _ _ => eq_refl) (fun _ _ => eq_refl)
                    (fun _ _ => eq_refl) w2) as Hlis;
      destruct (serve_loop d srv evs w2) as [[a|e| |] w3]
  end; simpl in *; split; try easy.
  intros _. rewrite Hlis, Hw1. simpl. now rewrite Haddr.
Qed.

(** X4.  The class statement overrides [do_GET] and nothing else: every
    other attribute of [MyHttpRequestHandler] is the one of its base
    class, and a request of any verb is handled as the base class handles
    it. *)
Theorem only_do_GET_is_overridden (d : defaults) (attr : string)
  (req : request) :
  getattr (MyHttpRequestHandler d) attr =
    (if String.eqb attr "do_GET"
     then Some (MyHttpRequestHandler_do_GET d)
     else getattr (SimpleHTTPRequestHandler d) attr) /\
  handle d (MyHttpRequestHandler d) req
    = handle d (SimpleHTTPRequestHandler d) req.
Proof.
  split.
  - unfold MyHttpRequestHandler. simpl.
    destruct (String.eqb attr "do_GET"); reflexivity.
  - unfold handle, MyHttpRequestHandler, SimpleHTTPRequestHandler. simpl.
    case_ifs; reflexivity.
Qed.


(** X6.  Requests are answered one by one, in the order of arrival, and
    independently: after a successful start, what the program has written
    to clients is the list of replies to the connections that came before
    the first other event, each reply being the one for that request on
    the file tree the process started with. *)
Theorem requests_are_answered_in_order (d : defaults) (argv : list string)
  (w w1 : world) (srv : server) :
  TCPServer ("", run_server_port_default) (MyHttpRequestHandler d) w
    = (Done srv, w1) ->
  wfile (python d argv w).2 =
  (wfile w ++ map (reply d (files w) (cwd w)) (served (incoming w)))%list.
Proof.
  intros H. pose proof (run_server_started _ _ _ _ _ H) as Hrun.
  destruct (TCPServer_done _ _ _ _ _ H) as [Hcls ->].
  unfold python, main. rewrite Hrun.
  match goal with
  | |- context [serve_loop d srv ?evs ?w2] =>
      pose proof (serve_loop_wfile d srv evs Hcls w2) as Hw;
      destruct (serve_loop d srv evs w2) as [[a|e| |] w3]
  end; exact Hw.
Qed.

(** X7.  While one instance of the program is listening, a second
    instance started on the same host stops with exit status 1: it prints
    nothing on standard output and holds no listener. *)
Theorem second_instance_cannot_start (d : defaults)
  (argv argv' : list string) (w : world) :
  (python d argv w).1 = LISTENING ->
  let w' := second_instance (python d argv w).2 in
  (python d argv' w').1 = STOPPED (Some 1%Z) /\
  stdout (python d argv' w').2 = [] /\
  listener (python d argv' w').2 = None /\
  wfile (python d argv' w').2 = [].
Proof.
  intros Hfirst w'.
  assert (Hl : listener (python d argv w).2 = Some ("", 8000%Z)).
  { destruct (TCPServer ("", run_server_port_default)
                (MyHttpRequestHandler d) w) as [[srv|e| |] w1] eqn:H.
    - destruct (python_started d argv _ _ _ H)
        as (r & w3 & _ & _ & Hlis & Hr).
      destruct r as [a|e| |]; [easy| | |]; destruct Hr as [Hpy _];
        rewrite Hpy in Hfirst |- *; try discriminate. exact Hlis.
    - revert Hfirst. unfold python, main.
      now rewrite (run_server_raised _ _ _ _ _ H).
    - revert H. unfold TCPServer. case_ifs; discriminate.
    - revert H. unfold TCPServer. case_ifs; discriminate. }
  subst w'. unfold python at 1 3 5 7. unfold main, run_server, with_.
  rewrite TCPServer_default. unfold second_instance at 1. simpl.
  rewrite Hl. simpl. repeat split.
Qed.

End Behaviour.

(** ** The further theorems at work on the sample host *)

Module BehaviourWitnesses.
Import Path Host Py Platform Main Serving Startup Behaviour Sample.

(** [run_server(8001)] with one request pending. *)
Lemma run_server_announces_its_port_witness :
  let w := host secret [] [Connection (GET "/hello.txt")] in
  let srv := Server ("", 8001%Z) (MyHttpRequestHandler platform) in
  TCPServer ("", 8001%Z) (MyHttpRequestHandler platform) w
    = (Done srv, with_listener w (Some ("", 8001%Z))) /\
  stdout (run_server platform 8001 w).2 = ["Serving at port 8001"].
Proof.
  intros w srv. split; [reflexivity|].
  exact (proj2 (proj2 (run_server_announces_its_port platform 8001 w _ srv
                         eq_refl))).
Defined.

(** A listener error after one request: the exception leaves
    [run_server] and the server is closed. *)
Lemma with_block_closes_the_server_witness :
  let w := host secret []
             [Connection (GET "/hello.txt"); ListenerError "reset"] in
  let srv := Server ("", 8001%Z) (MyHttpRequestHandler platform) in
  TCPServer ("", 8001%Z) (MyHttpRequestHandler platform) w
    = (Done srv, with_listener w (Some ("", 8001%Z))) /\
  (run_server platform 8001 w).1 = Raised (OSError "reset") /\
  listener (run_server platform 8001 w).2 = None.
Proof.
  intros w srv. split; [reflexivity|]. split; [reflexivity|].
  exact (proj1 (with_block_closes_the_server platform 8001 w _ srv eq_refl)
               (OSError "reset") eq_refl).
Defined.


(** Two requests, a termination, and a request that is never served. *)
Lemma requests_are_answered_in_order_witness :
  let w := host secret []
             [Connection (GET "/hello.txt"); Connection (GET "/nope");
              Terminate; Connection (GET "/hello.txt")] in
  let srv := Server ("", 8000%Z) (MyHttpRequestHandler platform) in
  TCPServer ("", run_server_port_default) (MyHttpRequestHandler platform) w
    = (Done srv, with_listener w (Some ("", 8000%Z))) /\
  wfile (python platform [] w).2 =
    [Response OK (Some "text/plain") (FileBytes hi);
     Response NOT_FOUND None (ErrorPayload "File not found")].
Proof.
  intros w srv. split; [reflexivity|].
  exact (requests_are_answered_in_order platform [] w _ srv eq_refl).
Defined.

(** A second instance next to a listening first one. *)
Lemma second_instance_cannot_start_witness :
  let w := host secret [] [Connection (GET "/hello.txt")] in
  (python platform [] w).1 = LISTENING /\
  (python platform [] (second_instance (python platform [] w).2)).1
    = STOPPED (Some 1%Z).
Proof.
  intros w. split; [reflexivity|].
  exact (proj1 (second_instance_cannot_start platform [] [] w eq_refl)).
Defined.

End BehaviourWitnesses.
